(** * Farm_Size_Income: the income simulator and the full-time-farmer count

    A shallow embedding of [Farm_Size_Income.py].

    Numbers.  The script computes with Python ints, Python floats and numpy
    int64/float64 arrays.  Two arithmetics are modelled.
    - Exact: every finite value is an exact rational ([Q], compared with
      [==]).  This is the arithmetic of the formulas the script documents in
      its introduction (lines 29-53), and of the code as long as no int64
      operation wraps around and no float64 operation rounds; the labour
      times and the counts of full-time farmers, computed on the integers
      the script feeds, are exact in it.
    - Machine ([Machine]): lines 64-68 with numpy's int64 wrap-around and
      binary64 rounding, for the inputs at which the code leaves the
      documented formulas.

    What the two division operators of the source do at a zero divisor is
    kept apart, because they differ:
    - Python's [a / b] on scalars raises [ZeroDivisionError] ([Py.truediv]);
    - numpy's [arr / b] raises nothing and yields [inf], [-inf] or [nan]
      ([Np.true_divide], with numpy's default error state, which the script
      never changes).

    The computing part of the script is embedded, and of its pandas calls
    the ones that shape the data handed to the charts ([merge], [melt]); the
    streamlit and altair calls that render it are presentation. *)

From Stdlib Require Import String DecimalString.
From Stdlib Require Import SpecFloat.
From Stdlib Require Import QArith Qround Qminmax ZArith List Lia Lqa.
Import ListNotations.
Open Scope Q_scope.

(** ** Python scalars *)

Module Py.

Inductive exn : Type := ZeroDivisionError.

Inductive result (A : Type) : Type :=
| Ok (a : A)
| Raise (e : exn).
Arguments Ok {A} a.
Arguments Raise {A} e.

Definition bind {A B : Type} (m : result A) (k : A -> result B) : result B :=
  match m with
  | Ok a => k a
  | Raise e => Raise e
  end.

(** [a / b] on Python numbers. *)
Definition truediv (a b : Q) : result Q :=
  if Qeq_bool b 0 then Raise ZeroDivisionError else Ok (a / b).

(** The builtin [max(a, b)]: the later argument wins only when it is
    strictly greater. *)
Definition max (a b : Q) : Q := if Qle_bool b a then a else b.

(** The builtin [min(a, b)]: the later argument wins only when it is
    strictly smaller. *)
Definition min (a b : Q) : Q := if Qle_bool a b then a else b.

End Py.

Notation "x <- m ;; k" := (Py.bind m (fun x => k))
  (at level 61, m at next level, right associativity).

(** ** numpy arrays and float64 elements *)

Module Np.

(** An element of a float64 array: a finite value or one of the three
    special values a division can produce. *)
Inductive float : Type :=
| Finite (q : Q)
| PosInf
| NegInf
| NaN.

(** Element of [arr / b]: division by zero gives a signed infinity, and
    [0 / 0] gives [nan]; no exception. *)
Definition true_divide (a b : Q) : float :=
  if Qeq_bool b 0 then
    if Qeq_bool a 0 then NaN
    else if Qle_bool 0 a then PosInf else NegInf
  else Finite (a / b).

(** Element of [np.ceil(arr)]: the special values pass through. *)
Definition ceil (x : float) : float :=
  match x with
  | Finite q => Finite (inject_Z (Qceiling q))
  | PosInf => PosInf
  | NegInf => NegInf
  | NaN => NaN
  end.

(** [x <= y] on float64: every comparison with [nan] is false. *)
Definition leb (x y : float) : bool :=
  match x, y with
  | NaN, _ | _, NaN => false
  | NegInf, _ => true
  | _, PosInf => true
  | Finite a, Finite b => Qle_bool a b
  | _, _ => false
  end.

Definition le (x y : float) : Prop := leb x y = true.

(** [np.arange(start, stop, step)] on integers, for a non-zero [step]:
    [ceil((stop - start) / step)] elements, none when that is negative.
    (numpy rejects [step = 0]; the script calls it with [step = 1].) *)
Definition arange (start stop step : Z) : list Q :=
  let n := Z.to_nat (- ((- (stop - start)) / step))%Z in
  map (fun i => inject_Z (start + Z.of_nat i * step)) (seq 0 n).

End Np.

(** ** [simulate_income] (lines 61-70) *)

(** [hired_labor_hours] of one pass of the loop. *)
Definition hired_labor_hours (LTH size MLT : Q) : Q :=
  Py.max 0 (LTH * size - MLT).

(** One pass of the loop body: the [income] that is appended.
    [farm_owner_labor_time] is computed and never read. *)
Definition income (size YH MCH LTH CMP MLT LC : Q) : Q :=
  let yield_total := YH * size in
  let material_cost_total := MCH * size in
  let farm_owner_labor_time := Py.min (LTH * size) MLT in
  let hired_labor_hours := hired_labor_hours LTH size MLT in
  (yield_total * CMP) - material_cost_total - (hired_labor_hours * LC).

(** The [for] loop over [farm_sizes], threading the list [incomes]. *)
Definition simulate_income (farm_sizes : list Q) (YH MCH LTH CMP MLT LC : Q)
  : list Q :=
  fold_left (fun incomes size => incomes ++ [income size YH MCH LTH CMP MLT LC])
            farm_sizes [].

(** The keyword defaults of the signature, [CMP=2.5, MLT=2000, LC=10]. *)
Definition CMP_default : Q := 25 # 10.
Definition MLT_default : Q := 2000.
Definition LC_default : Q := 10.

(** ** The script (lines 73-138) *)

(** Line 80: [area_one_farmer_can_manage = MLT / standard_LTH], a division of
    two Python scalars. *)
Definition area_one_farmer_can_manage (MLT standard_LTH : Q) : Py.result Q :=
  Py.truediv MLT standard_LTH.

(** Line 124: [labor_times = LTH * farm_sizes], a scalar times an array. *)
Definition labor_times (LTH : Q) (farm_sizes : list Q) : list Q :=
  map (fun size => LTH * size) farm_sizes.

(** Line 125: [full_time_farmers = np.ceil(labor_times / MLT)], both
    operations elementwise. *)
Definition full_time_farmers (LTH : Q) (farm_sizes : list Q) (MLT : Q)
  : list Np.float :=
  map Np.ceil (map (fun t => Np.true_divide t MLT) (labor_times LTH farm_sizes)).

(** The four [st.number_input] constants (lines 74-77).  [number_input] is
    called without bounds: each can be any number, zero included. *)
Record Constants : Type := mkConstants {
  CMP : Q;
  standard_LTH : Q;
  MLT : Q;
  LC : Q
}.

(** The three sliders of one farm (lines 104-115), keyed as the entries of
    [default_values]. *)
Record Farm : Type := mkFarm {
  YH : Q;
  MCH : Q;
  LTH : Q
}.

(** [st.slider(min_value, max_value)] returns a value of that range. *)
Definition slider (min_value max_value v : Q) : Prop :=
  min_value <= v <= max_value.

(** The ranges of the three sliders. *)
Definition Farm_ok (f : Farm) : Prop :=
  slider 0 3000 (YH f) /\ slider 0 1000 (MCH f) /\ slider 0 500 (LTH f).

Definition default_values : list Farm :=
  [ mkFarm 500 200 100; mkFarm 1500 600 160 ].

(** [farm_data]: the three columns of the [pd.DataFrame] of one farm. *)
Record DataFrame : Type := mkDataFrame {
  Farm_Size : list Q;
  Income : list Q;
  Full_Time_Farmers : list Np.float
}.

(** The body of the loop over the farms (lines 117-132). *)
Definition farm_data (c : Constants) (f : Farm) : DataFrame :=
  let farm_sizes := Np.arange 1 11 1 in
  let incomes :=
    simulate_income farm_sizes (YH f) (MCH f) (LTH f) (CMP c) (MLT c) (LC c) in
  mkDataFrame farm_sizes incomes (full_time_farmers (LTH f) farm_sizes (MLT c)).

(** A run of the script on the constants and the farms' slider values: the
    area metric first, then one table per farm.  An exception at line 80
    ends the run before any table is computed. *)
Definition run (c : Constants) (farms : list Farm)
  : Py.result (Q * list DataFrame) :=
  area <- area_one_farmer_can_manage (MLT c) (standard_LTH c) ;;
  Py.Ok (area, map (farm_data c) farms).

(** Line 66: [farm_owner_labor_time] of one pass of the loop of
    [simulate_income]. *)
Definition farm_owner_labor_time (LTH size MLT : Q) : Q :=
  Py.min (LTH * size) MLT.

(** ** pandas frames (lines 84, 128-141, 158) *)

Module Pd.

(** A value column: its name and its cells. *)
Definition column : Type := string * list Np.float.

(** A frame of the script: the ['Farm Size'] column, which is the key of
    every [merge] and the id of every [melt], and the other columns in
    order. *)
Record frame : Type := mkFrame {
  key : list Q;
  columns : list column
}.

(** [pd.DataFrame()]. *)
Definition empty_frame : frame := mkFrame [] [].

(** [df.empty]: no rows. *)
Definition empty (f : frame) : bool :=
  match key f with
  | [] => true
  | _ :: _ => false
  end.

Definition names (f : frame) : list string := map fst (columns f).

(** The pairs of row numbers (left, right) with equal keys, in the order of
    the left rows: the rows of an inner join. *)
Definition matches (kl kr : list Q) : list (nat * nat) :=
  flat_map
    (fun i =>
       map (pair i)
           (filter (fun j => Qeq_bool (nth i kl 0) (nth j kr 0))
                   (seq 0 (List.length kr))))
    (seq 0 (List.length kl)).

(** The cells of a column at the given row numbers. *)
Definition take {A : Type} (d : A) (rows : list nat) (cells : list A)
  : list A :=
  map (fun i => nth i cells d) rows.

(** A column name that both sides have gets the suffix of its side. *)
Definition suffixed (other : list string) (sfx name : string) : string :=
  if existsb (String.eqb name) other then String.append name sfx else name.

(** [left.merge(right, on='Farm Size')]: the inner join on the key, the
    columns of the left frame followed by those of the right one, with the
    default suffixes [_x] and [_y]. *)
Definition merge (l r : frame) : frame :=
  let m := matches (key l) (key r) in
  mkFrame
    (take 0 (map fst m) (key l))
    (map (fun col => (suffixed (names r) "_x" (fst col),
                      take Np.NaN (map fst m) (snd col)))
         (columns l)
     ++ map (fun col => (suffixed (names l) "_y" (fst col),
                         take Np.NaN (map snd m) (snd col)))
            (columns r)).

(** A row of a melted frame: ['Farm Size'], the variable (the name of the
    column the value comes from) and the value. *)
Definition long_row : Type := Q * string * Np.float.

Definition melt_column (k : list Q) (col : column) : list long_row :=
  map (fun kv => (fst kv, fst col, snd kv)) (combine k (snd col)).

(** [df.melt('Farm Size', ...)] without [value_vars]: every other column is
    melted, one after the other. *)
Definition melt (f : frame) : list long_row :=
  flat_map (melt_column (key f)) (columns f).

Inductive melted : Type :=
| Rows (rows : list long_row)
| KeyError (name : string).

(** [df.melt('Farm Size', ..., value_vars=...)]: the named columns only, in
    the order of [value_vars]; a name the frame does not have is a
    [KeyError]. *)
Fixpoint melt_vars (f : frame) (value_vars : list string) : melted :=
  match value_vars with
  | [] => Rows []
  | name :: rest =>
    match find (fun col => String.eqb (fst col) name) (columns f) with
    | None => KeyError name
    | Some col =>
      match melt_vars f rest with
      | Rows rows => Rows (melt_column (key f) col ++ rows)
      | KeyError missing => KeyError missing
      end
    end
  end.

End Pd.

(** ** The combined table and its melted views (lines 83-141, 158) *)

Definition num_farms : nat := 2.

(** [str(n)] of a natural number. *)
Definition str (n : nat) : string := NilEmpty.string_of_uint (Nat.to_uint n).

(** The column names [f'Farm {i + 1} Income'] and
    [f'Farm {i + 1} Full-Time Farmers']. *)
Definition Income_name (i : nat) : string :=
  String.append "Farm " (String.append (str (i + 1)) " Income").

Definition Full_Time_Farmers_name (i : nat) : string :=
  String.append "Farm " (String.append (str (i + 1)) " Full-Time Farmers").

(** [farm_data] of farm [i] with its column names (lines 128-132). *)
Definition farm_frame (i : nat) (d : DataFrame) : Pd.frame :=
  Pd.mkFrame (Farm_Size d)
             [ (Income_name i, map Np.Finite (Income d));
               (Full_Time_Farmers_name i, Full_Time_Farmers d) ].

(** The loop over [range(num_farms)] (lines 99-138), [sliders i] being the
    slider values of farm [i]: the first table is kept as it is, the later
    ones are merged into [all_farm_data]. *)
Definition all_farm_data (c : Constants) (sliders : nat -> Farm) : Pd.frame :=
  fold_left
    (fun all_farm_data i =>
       let farm_data := farm_frame i (farm_data c (sliders i)) in
       if Pd.empty all_farm_data then farm_data
       else Pd.merge all_farm_data farm_data)
    (seq 0 num_farms) Pd.empty_frame.

(** Line 141: the data of the income chart. *)
Definition all_farm_data_melted (c : Constants) (sliders : nat -> Farm)
  : list Pd.long_row :=
  Pd.melt (all_farm_data c sliders).

(** Line 158: the data of the full-time-farmers chart. *)
Definition all_farmers_data_melted (c : Constants) (sliders : nat -> Farm)
  : Pd.melted :=
  Pd.melt_vars (all_farm_data c sliders)
               (map Full_Time_Farmers_name (seq 0 num_farms)).

(** A column over the ten farm sizes of the script. *)
Definition ten_cells (col : Pd.column) : Prop :=
  List.length (snd col) = 10%nat.

(** ** Line 64-68 in machine arithmetic *)

(** [simulate_income] as numpy and Python compute it at the call of line 121:
    the sizes are [np.int64] elements of [np.arange], [YH], [MCH], [LTH],
    [MLT] and [LC] are Python ints (sliders and integer number inputs, all
    within the int64 range) and [CMP] is a Python float.  An [np.int64]
    operation wraps around modulo [2^64]; an operation with a float is done
    in binary64, the integer operand converted first. *)
Module Machine.

(** The value an [np.int64] keeps of an integer result. *)
Definition wrap (z : Z) : Z := ((z + 2 ^ 63) mod 2 ^ 64 - 2 ^ 63)%Z.

(** binary64: 53 bits of precision, infinities at exponent 1024. *)
Definition float64 : Type := spec_float.

Definition of_int (z : Z) : float64 := binary_normalize 53 1024 z 0 false.

Definition mul (x y : float64) : float64 := SFmul 53 1024 x y.

Definition sub (x y : float64) : float64 := SFsub 53 1024 x y.

(** The float [m * 2^e]. *)
Definition of_dyadic (m e : Z) : float64 := binary_normalize 53 1024 m e false.

(** The rational a finite float stands for. *)
Definition value (x : float64) : option Q :=
  match x with
  | S754_zero _ => Some 0
  | S754_finite s m e =>
    Some (inject_Z (if s then Z.neg m else Z.pos m) * Qpower 2 e)
  | S754_infinity _ | S754_nan => None
  end.

(** [max(0, x)] and [min(x, y)] on integers, as in [Py]. *)
Definition max (a b : Z) : Z := if (b <=? a)%Z then a else b.

Definition min (a b : Z) : Z := if (a <=? b)%Z then a else b.

(** One pass of the loop body. *)
Definition income (size YH MCH LTH : Z) (CMP : float64) (MLT LC : Z)
  : float64 :=
  let yield_total := wrap (YH * size) in
  let material_cost_total := wrap (MCH * size) in
  let farm_owner_labor_time := min (wrap (LTH * size)) MLT in
  let hired_labor_hours := max 0 (wrap (wrap (LTH * size) - MLT)) in
  sub (sub (mul (of_int yield_total) CMP) (of_int material_cost_total))
      (of_int (wrap (hired_labor_hours * LC))).

(** The [for] loop over [farm_sizes], threading the list [incomes]. *)
Definition simulate_income (farm_sizes : list Z) (YH MCH LTH : Z)
           (CMP : float64) (MLT LC : Z) : list float64 :=
  fold_left (fun incomes size => incomes ++ [income size YH MCH LTH CMP MLT LC])
            farm_sizes [].

End Machine.

(** ** Checks on the default values *)

Example arange_1_11 :
  Np.arange 1 11 1 = [1; 2; 3; 4; 5; 6; 7; 8; 9; 10].
Proof. reflexivity. Qed.

(** The scenario of the default first farm with [MLT = 200]: sizes 1 and 3. *)
Example scenario_incomes :
  Forall2 Qeq (simulate_income [1; 3] 500 200 100 (25 # 10) 200 10)
              [1050; 2150].
Proof. repeat constructor. Qed.

Example scenario_full_time_farmers :
  full_time_farmers 100 [1; 3] 200 = [Np.Finite 1; Np.Finite 2].
Proof. reflexivity. Qed.

(** The same scenario in machine arithmetic: [1050.0] and [2150.0]. *)
Example scenario_machine_incomes :
  map Machine.value
      (Machine.simulate_income [1; 3]%Z 500 200 100 (Machine.of_dyadic 5 (-1))
                               200 10)
  = [Some (4617948836659200 # 4398046511104);
     Some (4727899999436800 # 2199023255552)]
  /\ 4617948836659200 # 4398046511104 == 1050
  /\ 4727899999436800 # 2199023255552 == 2150.
Proof. repeat split. Qed.

(** ** Helper lemmas *)

Lemma Forall2_map_fun {A B : Type} (R : A -> B -> Prop) (f : A -> B) l :
  (forall x, R x (f x)) -> Forall2 R l (map f l).
Proof.
  intros HR. induction l as [|x l IH]; simpl; constructor; auto.
Qed.

(** The loop appends to [incomes] once per size: it is a [map]. *)
Lemma simulate_income_loop farm_sizes YH MCH LTH CMP MLT LC incomes :
  fold_left (fun incomes size => incomes ++ [income size YH MCH LTH CMP MLT LC])
            farm_sizes incomes
  = incomes ++ map (fun size => income size YH MCH LTH CMP MLT LC) farm_sizes.
Proof.
  revert incomes. induction farm_sizes as [|size rest IH]; intros incomes; simpl.
  - now rewrite app_nil_r.
  - rewrite IH, <- app_assoc. reflexivity.
Qed.

Lemma simulate_income_map farm_sizes YH MCH LTH CMP MLT LC :
  simulate_income farm_sizes YH MCH LTH CMP MLT LC
  = map (fun size => income size YH MCH LTH CMP MLT LC) farm_sizes.
Proof. unfold simulate_income. now rewrite simulate_income_loop. Qed.

Lemma full_time_farmers_map LTH farm_sizes MLT :
  full_time_farmers LTH farm_sizes MLT
  = map (fun size => Np.ceil (Np.true_divide (LTH * size) MLT)) farm_sizes.
Proof. unfold full_time_farmers, labor_times. now rewrite !map_map. Qed.

Lemma Qeq_bool_false_neq a b : ~ a == b -> Qeq_bool a b = false.
Proof.
  intros H. destruct (Qeq_bool a b) eqn:E; [|reflexivity].
  apply Qeq_bool_iff in E. contradiction.
Qed.

Lemma true_divide_nonzero a b :
  ~ b == 0 -> Np.true_divide a b = Np.Finite (a / b).
Proof. intros H. unfold Np.true_divide. now rewrite Qeq_bool_false_neq. Qed.

Lemma ceil_true_divide_nonzero a b :
  ~ b == 0 ->
  Np.ceil (Np.true_divide a b) = Np.Finite (inject_Z (Qceiling (a / b))).
Proof. intros H. now rewrite true_divide_nonzero. Qed.

(** ** The full-time-farmer count *)

(** C2: when [MLT > 0], the count reported for each size [s] is the ceiling
    of [LTH*s / MLT]. *)
Theorem full_time_farmers_ceiling LTH farm_sizes MLT :
  0 < MLT ->
  Forall2
    (fun s n => n = Np.Finite (inject_Z (Qceiling (LTH * s / MLT))))
    farm_sizes
    (full_time_farmers LTH farm_sizes MLT).
Proof.
  intros HMLT. rewrite full_time_farmers_map. apply Forall2_map_fun. intros s.
  apply ceil_true_divide_nonzero. intros H. rewrite H in HMLT.
  now apply Qlt_irrefl in HMLT.
Qed.

(** The default first farm at sizes 1 and 3, with [MLT = 200]. *)
Lemma full_time_farmers_ceiling_witness :
  Forall2
    (fun s n => n = Np.Finite (inject_Z (Qceiling (100 * s / 200))))
    [1; 3]
    (full_time_farmers 100 [1; 3] 200).
Proof. apply (full_time_farmers_ceiling 100 [1; 3] 200). reflexivity. Defined.

Lemma Qceiling_pos x : 0 < x -> (1 <= Qceiling x)%Z.
Proof.
  intros Hx. pose proof (Qle_ceiling x) as Hc.
  assert (H : inject_Z 0 < inject_Z (Qceiling x)) by (eapply Qlt_le_trans; eauto).
  rewrite <- Zlt_Qlt in H. lia.
Qed.

Lemma Qceiling_two x : 1 < x <-> (2 <= Qceiling x)%Z.
Proof.
  split; intros H.
  - pose proof (Qle_ceiling x) as Hc.
    assert (H1 : inject_Z 1 < inject_Z (Qceiling x)) by (eapply Qlt_le_trans; eauto).
    rewrite <- Zlt_Qlt in H1. lia.
  - pose proof (Qceiling_lt x) as Hc.
    assert (H1 : inject_Z 1 <= inject_Z (Qceiling x - 1)) by (rewrite <- Zle_Qle; lia).
    eapply Qle_lt_trans; eauto.
Qed.

Lemma le_Finite_inject_Z (k z : Z) :
  Np.le (Np.Finite (inject_Z k)) (Np.Finite (inject_Z z)) <-> (k <= z)%Z.
Proof.
  unfold Np.le; simpl. rewrite Qle_bool_iff, <- Zle_Qle. reflexivity.
Qed.

Lemma Qdiv_pos a b : 0 < a -> 0 < b -> 0 < a / b.
Proof. intros Ha Hb. apply Qlt_shift_div_l; [exact Hb | lra]. Qed.

Lemma Qlt_not_eq0 b : 0 < b -> ~ b == 0.
Proof. intros Hb H. rewrite H in Hb. now apply Qlt_irrefl in Hb. Qed.

Lemma Py_max_0_pos x : 0 < Py.max 0 x <-> 0 < x.
Proof.
  unfold Py.max. destruct (Qle_bool x 0) eqn:E.
  - apply Qle_bool_iff in E. split; intros H; lra.
  - reflexivity.
Qed.

(** Hired labour starts exactly where the labour demand exceeds [MLT]. *)
Lemma hired_labor_hours_pos LTH size MLT :
  0 < hired_labor_hours LTH size MLT <-> MLT < LTH * size.
Proof.
  unfold hired_labor_hours. rewrite Py_max_0_pos. split; intros H; lra.
Qed.

Lemma Qdiv_gt_1 a b : 0 < b -> (1 < a / b <-> b < a).
Proof.
  intros Hb. split; intros H.
  - assert (E : b * (a / b) == a) by (apply Qmult_div_r, Qlt_not_eq0, Hb).
    rewrite <- E. setoid_replace b with (b * 1) at 1 by ring.
    apply Qmult_lt_l; assumption.
  - apply Qlt_shift_div_l; [exact Hb | lra].
Qed.

(** With a non-zero [MLT] the count is a finite integer. *)
Lemma full_time_farmer_nonzero LTH size MLT :
  ~ MLT == 0 ->
  Np.ceil (Np.true_divide (LTH * size) MLT)
  = Np.Finite (inject_Z (Qceiling (LTH * size / MLT))).
Proof. apply ceil_true_divide_nonzero. Qed.

Lemma Forall_map_fun {A B : Type} (P : A -> Prop) (R : B -> Prop)
      (f : A -> B) l :
  (forall x, P x -> R (f x)) -> Forall P l -> Forall R (map f l).
Proof.
  intros HPR HP. induction HP as [|x l Hx _ IH]; simpl; constructor; auto.
Qed.

Lemma Forall2_map_fun_if {A B : Type} (P : A -> Prop) (R : A -> B -> Prop)
      (f : A -> B) l :
  (forall x, P x -> R x (f x)) -> Forall P l -> Forall2 R l (map f l).
Proof.
  intros HPR HP. induction HP as [|x l Hx _ IH]; simpl; constructor; auto.
Qed.

Lemma Forall2_map_map {A B : Type} (R : A -> A -> Prop) (S : B -> B -> Prop)
      (f : A -> B) l1 l2 :
  (forall x y, R x y -> S (f x) (f y)) ->
  Forall2 R l1 l2 -> Forall2 S (map f l1) (map f l2).
Proof.
  intros HRS H. induction H as [|x y l1 l2 Hxy _ IH]; simpl; constructor; auto.
Qed.

(** One entry of the count is monotone in the size when [LTH >= 0]. *)
Lemma full_time_farmer_mono LTH MLT s1 s2 :
  0 <= LTH -> 0 < MLT -> s1 <= s2 ->
  Np.le (Np.ceil (Np.true_divide (LTH * s1) MLT))
        (Np.ceil (Np.true_divide (LTH * s2) MLT)).
Proof.
  intros HL HM Hs.
  rewrite !full_time_farmer_nonzero by (apply Qlt_not_eq0, HM).
  apply le_Finite_inject_Z, Qceiling_resp_le.
  apply Qmult_le_compat_r.
  - rewrite !(Qmult_comm LTH). apply Qmult_le_compat_r; assumption.
  - apply Qlt_le_weak, Qinv_lt_0_compat, HM.
Qed.

(** C3 (as amended): with [MLT == 0] the count raises nothing: each entry is
    [inf] where [LTH*s > 0], [nan] where [LTH*s == 0] and [-inf] where
    [LTH*s < 0].  The area calculation divides by [standard_LTH], not by
    [MLT]: it raises [ZeroDivisionError] exactly when [standard_LTH == 0],
    which ends the run with that exception, and otherwise it returns [0] for
    [MLT == 0] and the run yields one table per farm. *)
Theorem zero_MLT_behaviour LTH farm_sizes (c : Constants) (farms : list Farm) :
  Forall2
    (fun s n => (0 < LTH * s -> n = Np.PosInf)
                /\ (LTH * s == 0 -> n = Np.NaN)
                /\ (LTH * s < 0 -> n = Np.NegInf))
    farm_sizes
    (full_time_farmers LTH farm_sizes 0)
  /\ (forall MLT standard_LTH,
        area_one_farmer_can_manage MLT standard_LTH
        = Py.Raise Py.ZeroDivisionError <-> standard_LTH == 0)
  /\ (forall standard_LTH,
        ~ standard_LTH == 0 ->
        exists area,
          area_one_farmer_can_manage 0 standard_LTH = Py.Ok area /\ area == 0)
  /\ (standard_LTH c == 0 -> run c farms = Py.Raise Py.ZeroDivisionError)
  /\ (~ standard_LTH c == 0 ->
      exists area tables,
        run c farms = Py.Ok (area, tables) /\ length tables = length farms).
Proof.
  split; [|split; [|split; [|split]]].
  - rewrite full_time_farmers_map. apply Forall2_map_fun. intros s.
    unfold Np.true_divide. change (Qeq_bool 0 0) with true. cbv iota.
    destruct (Qeq_bool (LTH * s) 0) eqn:E0.
    + apply Qeq_bool_iff in E0. repeat split; intros H; try reflexivity; lra.
    + assert (N0 : ~ LTH * s == 0)
        by (intros H; apply Qeq_bool_iff in H; congruence).
      destruct (Qle_bool 0 (LTH * s)) eqn:E1.
      * apply Qle_bool_iff in E1.
        repeat split; intros H; try reflexivity; try contradiction; lra.
      * assert (N1 : ~ 0 <= LTH * s)
          by (intros H; apply Qle_bool_iff in H; congruence).
        repeat split; intros H; try reflexivity; try contradiction.
        exfalso. apply N1. lra.
  - intros MLT0 sLTH. unfold area_one_farmer_can_manage, Py.truediv.
    destruct (Qeq_bool sLTH 0) eqn:E.
    + apply Qeq_bool_iff in E. tauto.
    + split; [discriminate|]. intros H. apply Qeq_bool_iff in H. congruence.
  - intros sLTH H. unfold area_one_farmer_can_manage, Py.truediv.
    rewrite (Qeq_bool_false_neq _ _ H). eexists. split; [reflexivity|].
    field. exact H.
  - intros H. unfold run, area_one_farmer_can_manage, Py.truediv.
    apply Qeq_bool_iff in H. now rewrite H.
  - intros H. unfold run, area_one_farmer_can_manage, Py.truediv.
    rewrite (Qeq_bool_false_neq _ _ H). simpl.
    do 2 eexists. split; [reflexivity|]. apply length_map.
Qed.

(** C3, the claim as written fails: with [MLT = 0] (and the defaults
    elsewhere) the run raises nothing, the area is [0] and every count of the
    first default farm is [inf]. *)
Lemma zero_MLT_no_error :
  area_one_farmer_can_manage 0 100 = Py.Ok (0 / 100)
  /\ full_time_farmers 100 (Np.arange 1 11 1) 0 = repeat Np.PosInf 10
  /\ (exists area tables,
        run (mkConstants (25 # 10) 100 0 10) default_values
        = Py.Ok (area, tables)
        /\ length tables = 2%nat)
  /\ ~ (forall c farms,
          MLT c == 0 -> run c farms = Py.Raise Py.ZeroDivisionError).
Proof.
  split; [reflexivity|]. split; [reflexivity|]. split.
  - do 2 eexists. split; reflexivity.
  - intros H.
    assert (E : run (mkConstants (25 # 10) 100 0 10) default_values
                = Py.Raise Py.ZeroDivisionError) by (apply H; reflexivity).
    discriminate E.
Qed.

(** The three signs of the labour demand at [MLT = 0], and a run with
    [standard_LTH = 0]. *)
Lemma zero_MLT_behaviour_witness :
  full_time_farmers 100 [1; 0; -1] 0 = [Np.PosInf; Np.NaN; Np.NegInf]
  /\ run (mkConstants (25 # 10) 0 200 10) default_values
     = Py.Raise Py.ZeroDivisionError.
Proof.
  pose proof (zero_MLT_behaviour 100 [1; 0; -1]
                (mkConstants (25 # 10) 0 200 10) default_values)
    as (_ & _ & _ & Hraise & _).
  split; [reflexivity | apply Hraise; reflexivity].
Defined.

(** X15: when [LTH > 0], [MLT > 0] and every farm size is positive, every
    reported count is at least 1. *)
Theorem full_time_farmers_at_least_one LTH farm_sizes MLT :
  0 < LTH -> 0 < MLT -> Forall (fun s => 0 < s) farm_sizes ->
  Forall (fun n => Np.le (Np.Finite 1) n) (full_time_farmers LTH farm_sizes MLT).
Proof.
  intros HL HM Hs. rewrite full_time_farmers_map.
  apply Forall_map_fun with (P := fun s => 0 < s); [|exact Hs].
  intros s Hpos. rewrite full_time_farmer_nonzero by (apply Qlt_not_eq0, HM).
  apply (le_Finite_inject_Z 1), Qceiling_pos, Qdiv_pos; [|exact HM].
  apply Qmult_lt_0_compat; assumption.
Qed.

(** The default first farm over the sizes of the script, with [MLT = 200]. *)
Lemma full_time_farmers_at_least_one_witness :
  Forall (fun n => Np.le (Np.Finite 1) n)
         (full_time_farmers 100 (Np.arange 1 11 1) 200).
Proof.
  apply (full_time_farmers_at_least_one 100 (Np.arange 1 11 1) 200);
    [reflexivity | reflexivity | repeat constructor].
Defined.

(** C4: the count is not always at least 1 for a positive farm size: the
    labour-time slider starts at 0 (line 113), and with [LTH = 0] and
    [MLT = 200] the count of a one-hectare farm is 0, against the comment of
    line 125 that the rounded count already includes the farm owner. *)
Lemma zero_LTH_no_farmer :
  slider 0 500 0
  /\ full_time_farmers 0 [1] 200 = [Np.Finite 0]
  /\ ~ (forall LTH farm_sizes MLT,
          0 < MLT -> Forall (fun s => 0 < s) farm_sizes ->
          Forall (fun n => Np.le (Np.Finite 1) n)
                 (full_time_farmers LTH farm_sizes MLT)).
Proof.
  split; [split; discriminate|]. split; [reflexivity|].
  intros H. specialize (H 0 [1] 200).
  assert (H1 : Forall (fun n => Np.le (Np.Finite 1) n) (full_time_farmers 0 [1] 200))
    by (apply H; [reflexivity | repeat constructor]).
  inversion H1 as [|n l Hn _ E]. discriminate Hn.
Qed.

(** C5: when [MLT > 0] and the labour demand [LTH*s] is not negative, labour
    is hired for size [s] exactly when the count reported for [s] is at
    least 2. *)
Theorem hired_iff_two_farmers LTH farm_sizes MLT :
  0 < MLT -> Forall (fun s => 0 <= LTH * s) farm_sizes ->
  Forall2
    (fun s n => 0 < hired_labor_hours LTH s MLT <-> Np.le (Np.Finite 2) n)
    farm_sizes
    (full_time_farmers LTH farm_sizes MLT).
Proof.
  intros HM Hs. rewrite full_time_farmers_map.
  apply Forall2_map_fun_if with (P := fun s => 0 <= LTH * s); [|exact Hs].
  intros s _. rewrite full_time_farmer_nonzero by (apply Qlt_not_eq0, HM).
  rewrite hired_labor_hours_pos, (le_Finite_inject_Z 2), <- Qceiling_two.
  symmetry. apply Qdiv_gt_1, HM.
Qed.

(** The default first farm below, at and beyond the threshold. *)
Lemma hired_iff_two_farmers_witness :
  Forall2
    (fun s n => 0 < hired_labor_hours 100 s 200 <-> Np.le (Np.Finite 2) n)
    [1; 2; 3]
    (full_time_farmers 100 [1; 2; 3] 200).
Proof.
  apply (hired_iff_two_farmers 100 [1; 2; 3] 200);
    [reflexivity | repeat constructor; discriminate].
Defined.

(** C6: for a labour time per hectare the slider can return ([0 <= LTH]) and
    [MLT > 0], the count does not decrease with the farm size: sizes that
    grow pointwise give counts that grow pointwise. *)
Theorem full_time_farmers_monotone LTH MLT sizes1 sizes2 :
  slider 0 500 LTH -> 0 < MLT ->
  Forall2 Qle sizes1 sizes2 ->
  Forall2 Np.le (full_time_farmers LTH sizes1 MLT)
                (full_time_farmers LTH sizes2 MLT).
Proof.
  intros [HL _] HM Hs. rewrite !full_time_farmers_map.
  apply Forall2_map_map with (R := Qle); [|exact Hs].
  intros s1 s2 H12. apply full_time_farmer_mono; assumption.
Qed.

(** Two size sequences of the default first farm. *)
Lemma full_time_farmers_monotone_witness :
  Forall2 Np.le (full_time_farmers 100 [1; 2; 3] 200)
                (full_time_farmers 100 [2; 2; 10] 200).
Proof.
  apply (full_time_farmers_monotone 100 200 [1; 2; 3] [2; 2; 10]);
    [split; discriminate | reflexivity | repeat constructor; discriminate].
Defined.

(** ** Incomes without hired labour *)

Lemma Py_max_0_nonpos x : x <= 0 -> Py.max 0 x == 0.
Proof.
  intros H. unfold Py.max. apply Qle_bool_iff in H. now rewrite H.
Qed.

(** Below the threshold no labour is hired. *)
Lemma income_owner_only s YH MCH LTH CMP MLT LC :
  LTH * s <= MLT ->
  income s YH MCH LTH CMP MLT LC == (YH * CMP - MCH) * s.
Proof.
  intros H. unfold income, hired_labor_hours.
  rewrite Py_max_0_nonpos by lra. ring.
Qed.

(** ** Boundary and auxiliary values *)

(** C8: when [MLT > 0], the income of size 0 is 0 and its count is 0. *)
Theorem zero_size YH MCH LTH CMP MLT LC :
  0 < MLT ->
  Forall2 Qeq (simulate_income [0] YH MCH LTH CMP MLT LC) [0]
  /\ full_time_farmers LTH [0] MLT = [Np.Finite 0].
Proof.
  intros HM. split.
  - rewrite simulate_income_map. simpl. constructor; [|constructor].
    rewrite income_owner_only by lra. ring.
  - rewrite full_time_farmers_map. simpl.
    rewrite full_time_farmer_nonzero by (apply Qlt_not_eq0, HM).
    assert (E : LTH * 0 / MLT == inject_Z 0)
      by (field; apply Qlt_not_eq0, HM).
    now rewrite E, Qceiling_Z.
Qed.

(** The default first farm at size 0. *)
Lemma zero_size_witness :
  Forall2 Qeq (simulate_income [0] 500 200 100 (25 # 10) 200 10) [0]
  /\ full_time_farmers 100 [0] 200 = [Np.Finite 0].
Proof. apply (zero_size 500 200 100 (25 # 10) 200 10). reflexivity. Defined.

(** C9: when [standard_LTH] is not 0, the area one farmer can manage is
    [MLT / standard_LTH]; a run computes it once, from the constants alone,
    whatever the farms; for [MLT = 200] and [standard_LTH = 100] it is 2. *)
Theorem area_one_farmer_can_manage_value (c : Constants) :
  ~ standard_LTH c == 0 ->
  area_one_farmer_can_manage (MLT c) (standard_LTH c)
  = Py.Ok (MLT c / standard_LTH c)
  /\ (forall farms,
        exists tables, run c farms = Py.Ok (MLT c / standard_LTH c, tables))
  /\ (exists area,
        area_one_farmer_can_manage 200 100 = Py.Ok area /\ area == 2).
Proof.
  intros H.
  assert (E : area_one_farmer_can_manage (MLT c) (standard_LTH c)
              = Py.Ok (MLT c / standard_LTH c)).
  { unfold area_one_farmer_can_manage, Py.truediv.
    now rewrite (Qeq_bool_false_neq _ _ H). }
  split; [exact E|]. split.
  - intros farms. unfold run. rewrite E. simpl. eexists. reflexivity.
  - eexists. split; reflexivity.
Qed.

(** The default constants. *)
Lemma area_one_farmer_can_manage_value_witness :
  area_one_farmer_can_manage 200 100 = Py.Ok (200 / 100)
  /\ 200 / 100 == 2.
Proof.
  split; [|reflexivity].
  apply (area_one_farmer_can_manage_value (mkConstants (25 # 10) 100 200 10)).
  discriminate.
Defined.

(** C10: two runs whose inputs differ only in [standard_LTH] compute the same
    incomes (and the same tables altogether) whenever both complete; only
    the area metric reads [standard_LTH]. *)
Theorem incomes_independent_of_standard_LTH
        (c1 c2 : Constants) farms area1 tables1 area2 tables2 :
  CMP c1 = CMP c2 -> MLT c1 = MLT c2 -> LC c1 = LC c2 ->
  run c1 farms = Py.Ok (area1, tables1) ->
  run c2 farms = Py.Ok (area2, tables2) ->
  map Income tables1 = map Income tables2 /\ tables1 = tables2.
Proof.
  intros EC EM EL R1 R2.
  assert (ET : map (farm_data c1) farms = map (farm_data c2) farms).
  { apply map_ext. intros f. unfold farm_data. now rewrite EC, EM, EL. }
  unfold run in R1, R2.
  destruct (area_one_farmer_can_manage (MLT c1) (standard_LTH c1));
    [|discriminate].
  destruct (area_one_farmer_can_manage (MLT c2) (standard_LTH c2));
    [|discriminate].
  simpl in R1, R2. injection R1 as _ <-. injection R2 as _ <-.
  now rewrite ET.
Qed.

(** The default farms with [standard_LTH] 100 and 50. *)
Lemma incomes_independent_of_standard_LTH_witness :
  map Income (map (farm_data (mkConstants (25 # 10) 100 200 10)) default_values)
  = map Income (map (farm_data (mkConstants (25 # 10) 50 200 10)) default_values).
Proof.
  apply (incomes_independent_of_standard_LTH
           (mkConstants (25 # 10) 100 200 10) (mkConstants (25 # 10) 50 200 10)
           default_values
           (200 / 100) (map (farm_data (mkConstants (25 # 10) 100 200 10)) default_values)
           (200 / 50) (map (farm_data (mkConstants (25 # 10) 50 200 10)) default_values));
    reflexivity.
Defined.

(** ** Where the int64 labour cost wraps around *)

(** C1: the income the code returns is not always the documented
    [YH*s*CMP - MCH*s - max(0, LTH*s - MLT)*LC].  With [YH = 500],
    [MCH = 200], [LTH = 500], [CMP = 2.5], [MLT = 0] and
    [LC = 2^53 - 1 = 9007199254740991] (the largest integer the number input
    takes), at size 3 the int64 product [1500 * LC] of line 68 wraps around
    to [-4935945191598065116], and the code returns the float
    [4935945191598067712] where the formula gives
    [-13510798882111483350]. *)
Theorem simulate_income_int64_wraps :
  Machine.wrap (1500 * 9007199254740991) = (-4935945191598065116)%Z
  /\ Machine.simulate_income [3]%Z 500 200 500 (Machine.of_dyadic 5 (-1))
                             0 9007199254740991
     = [S754_finite false 4820258976169988 10]
  /\ Machine.value (S754_finite false 4820258976169988 10)
     = Some 4935945191598067712
  /\ 500 * 3 * (25 # 10) - 200 * 3
       - Qmax 0 (500 * 3 - 0) * 9007199254740991
     == -13510798882111483350.
Proof. repeat split. Qed.

(** C7: beyond the crossing point the income does not always change by
    [YH*CMP - MCH - LTH*LC] per hectare.  With [YH = 500], [MCH = 200],
    [LTH = 500], [CMP = 2.5], [MLT = 1] and [LC = 2^53 - 1], the sizes 1 and
    3 both lie beyond [MLT / LTH = 1/500] and that increment is negative,
    yet the code returns the floats [-4494592428115753472] at size 1 and
    [4944952390852808704] at size 3: the int64 labour cost of size 3 has
    wrapped around, and the income has risen. *)
Theorem income_increment_int64_wraps :
  Machine.simulate_income [1; 3]%Z 500 200 500 (Machine.of_dyadic 5 (-1))
                          1 9007199254740991
  = [S754_finite true 8778500836163581 9;
     S754_finite false 4829055069192196 10]
  /\ Machine.value (S754_finite true 8778500836163581 9)
     = Some (-4494592428115753472)
  /\ Machine.value (S754_finite false 4829055069192196 10)
     = Some 4944952390852808704
  /\ 1 / 500 <= 1
  /\ 500 * (25 # 10) - 200 - 500 * 9007199254740991 < 0.
Proof. repeat split; discriminate. Qed.

(** ** Further properties of [simulate_income] *)

(** X1: the labour of a farm splits into the owner's part and the hired
    part: [farm_owner_labor_time + hired_labor_hours == LTH * size], the
    hired part is never negative and the owner's part never exceeds [MLT]. *)
Theorem labor_split LTH size MLT :
  farm_owner_labor_time LTH size MLT + hired_labor_hours LTH size MLT
  == LTH * size
  /\ 0 <= hired_labor_hours LTH size MLT
  /\ farm_owner_labor_time LTH size MLT <= MLT.
Proof.
  unfold farm_owner_labor_time, hired_labor_hours, Py.min, Py.max.
  destruct (Qle_bool (LTH * size) MLT) eqn:E1;
    destruct (Qle_bool (LTH * size - MLT) 0) eqn:E2.
  - apply Qle_bool_iff in E1. repeat split; lra.
  - apply Qle_bool_iff in E1.
    assert (N : ~ LTH * size - MLT <= 0)
      by (intros H; apply Qle_bool_iff in H; congruence).
    exfalso. apply N. lra.
  - apply Qle_bool_iff in E2.
    assert (N : ~ LTH * size <= MLT)
      by (intros H; apply Qle_bool_iff in H; congruence).
    exfalso. apply N. lra.
  - assert (N : ~ LTH * size - MLT <= 0)
      by (intros H; apply Qle_bool_iff in H; congruence).
    repeat split; lra.
Qed.

(** X3: the incomes and the counts of a concatenation of size sequences are
    the concatenations of the incomes and of the counts; in particular,
    extending the sizes leaves the earlier results as they were. *)
Theorem results_of_appended_sizes sizes1 sizes2 YH MCH LTH CMP MLT LC :
  simulate_income (sizes1 ++ sizes2) YH MCH LTH CMP MLT LC
  = simulate_income sizes1 YH MCH LTH CMP MLT LC
    ++ simulate_income sizes2 YH MCH LTH CMP MLT LC
  /\ full_time_farmers LTH (sizes1 ++ sizes2) MLT
     = full_time_farmers LTH sizes1 MLT ++ full_time_farmers LTH sizes2 MLT.
Proof.
  split.
  - rewrite !simulate_income_map. apply map_app.
  - rewrite !full_time_farmers_map. apply map_app.
Qed.

(** ** Further properties of the full-time-farmer count *)

Lemma Qceiling_bracket x :
  inject_Z (Qceiling x - 1) < x /\ x <= inject_Z (Qceiling x).
Proof. split; [apply Qceiling_lt | apply Qle_ceiling]. Qed.

(** The count [k] of a size, for [MLT > 0]: [k] farmers cover the labour
    demand and [k - 1] do not. *)
Lemma full_time_farmer_bracket LTH s MLT :
  0 < MLT ->
  exists k : Z,
    Np.ceil (Np.true_divide (LTH * s) MLT) = Np.Finite (inject_Z k)
    /\ inject_Z (k - 1) * MLT < LTH * s
    /\ LTH * s <= inject_Z k * MLT.
Proof.
  intros HM. exists (Qceiling (LTH * s / MLT)).
  split; [apply full_time_farmer_nonzero, Qlt_not_eq0, HM|].
  destruct (Qceiling_bracket (LTH * s / MLT)) as [Hlo Hhi].
  assert (E : LTH * s / MLT * MLT == LTH * s)
    by (field; apply Qlt_not_eq0, HM).
  set (x := LTH * s / MLT) in *.
  assert (H1 : inject_Z (Qceiling x - 1) * MLT < x * MLT)
    by (apply Qmult_lt_compat_r; assumption).
  assert (H2 : x * MLT <= inject_Z (Qceiling x) * MLT)
    by (apply Qmult_le_compat_r; [exact Hhi | lra]).
  rewrite E in H1, H2. split; assumption.
Qed.

(** X7: for [MLT > 0] the count [k] reported for size [s] is the number of
    farmers that covers the labour demand with none to spare:
    [(k - 1) * MLT < LTH * s <= k * MLT]. *)
Theorem full_time_farmers_cover_demand LTH farm_sizes MLT :
  0 < MLT ->
  Forall2
    (fun s n =>
       exists k : Z,
         n = Np.Finite (inject_Z k)
         /\ inject_Z (k - 1) * MLT < LTH * s
         /\ LTH * s <= inject_Z k * MLT)
    farm_sizes
    (full_time_farmers LTH farm_sizes MLT).
Proof.
  intros HM. rewrite full_time_farmers_map. apply Forall2_map_fun.
  intros s. apply full_time_farmer_bracket, HM.
Qed.

(** The default first farm at sizes 1 and 3. *)
Lemma full_time_farmers_cover_demand_witness :
  Forall2
    (fun s n =>
       exists k : Z,
         n = Np.Finite (inject_Z k)
         /\ inject_Z (k - 1) * 200 < 100 * s
         /\ 100 * s <= inject_Z k * 200)
    [1; 3]
    (full_time_farmers 100 [1; 3] 200).
Proof.
  apply (full_time_farmers_cover_demand 100 [1; 3] 200). reflexivity.
Defined.

(** X8: for [MLT > 0] and a positive labour demand, the hired hours of a
    size with count [k] are what [k - 1] farmers besides the owner work:
    [(k - 2) * MLT < hired_labor_hours <= (k - 1) * MLT]. *)
Theorem hired_hours_within_count LTH farm_sizes MLT :
  0 < MLT -> Forall (fun s => 0 < LTH * s) farm_sizes ->
  Forall2
    (fun s n =>
       exists k : Z,
         n = Np.Finite (inject_Z k)
         /\ inject_Z (k - 2) * MLT < hired_labor_hours LTH s MLT
         /\ hired_labor_hours LTH s MLT <= inject_Z (k - 1) * MLT)
    farm_sizes
    (full_time_farmers LTH farm_sizes MLT).
Proof.
  intros HM Hs. rewrite full_time_farmers_map.
  apply Forall2_map_fun_if with (P := fun s => 0 < LTH * s); [|exact Hs].
  intros s Hpos.
  destruct (full_time_farmer_bracket LTH s MLT HM) as (k & Ek & Hlo & Hhi).
  exists k. split; [exact Ek|].
  assert (Hk : (1 <= k)%Z).
  { assert (H0 : 0 < inject_Z k * MLT) by lra.
    assert (H1 : 0 < inject_Z k).
    { destruct (Qlt_le_dec 0 (inject_Z k)) as [H|H]; [exact H|].
      exfalso.
      assert (inject_Z k * MLT <= 0 * MLT)
        by (apply Qmult_le_compat_r; lra).
      lra. }
    change 0 with (inject_Z 0) in H1. rewrite <- Zlt_Qlt in H1. lia. }
  assert (E1 : inject_Z (k - 1) == inject_Z k - 1)
    by (unfold Z.sub; rewrite inject_Z_plus; reflexivity).
  assert (E2 : inject_Z (k - 2) == inject_Z k - 2)
    by (unfold Z.sub; rewrite inject_Z_plus; reflexivity).
  assert (Hk1 : 0 <= (inject_Z k - 1) * MLT).
  { apply Qmult_le_0_compat; [|lra].
    assert (inject_Z 1 <= inject_Z k) by (rewrite <- Zle_Qle; exact Hk).
    change (inject_Z 1) with 1 in *. lra. }
  rewrite E1 in Hlo. rewrite E1, E2.
  assert (R1 : (inject_Z k - 1) * MLT == inject_Z k * MLT - MLT) by ring.
  assert (R2 : (inject_Z k - 2) * MLT == inject_Z k * MLT - 2 * MLT) by ring.
  unfold hired_labor_hours, Py.max.
  destruct (Qle_bool (LTH * s - MLT) 0) eqn:E.
  - apply Qle_bool_iff in E. split; lra.
  - split; lra.
Qed.

(** The default first farm over the sizes of the script. *)
Lemma hired_hours_within_count_witness :
  Forall2
    (fun s n =>
       exists k : Z,
         n = Np.Finite (inject_Z k)
         /\ inject_Z (k - 2) * 200 < hired_labor_hours 100 s 200
         /\ hired_labor_hours 100 s 200 <= inject_Z (k - 1) * 200)
    (Np.arange 1 11 1)
    (full_time_farmers 100 (Np.arange 1 11 1) 200).
Proof.
  apply (hired_hours_within_count 100 (Np.arange 1 11 1) 200);
    [reflexivity | repeat constructor].
Defined.

(** ** The combined table *)

Lemma take_all {A : Type} (d : A) (cells : list A) :
  Pd.take d (seq 0 (List.length cells)) cells = cells.
Proof.
  unfold Pd.take. induction cells as [|a cells IH]; simpl; [reflexivity|].
  f_equal. rewrite <- seq_shift, map_map. exact IH.
Qed.

(** The farm sizes of the script are pairwise distinct: each row of a table
    matches the same row of another table, and no other. *)
Lemma farm_sizes_matches :
  Pd.matches (Np.arange 1 11 1) (Np.arange 1 11 1)
  = map (fun i => (i, i)) (seq 0 10).
Proof. reflexivity. Qed.

Lemma take_ten (col : Pd.column) :
  ten_cells col -> Pd.take Np.NaN (seq 0 10) (snd col) = snd col.
Proof. intros H. rewrite <- H. apply take_all. Qed.

(** Merging two tables over the farm sizes of the script puts their columns
    side by side. *)
Lemma merge_same_sizes (cl cr : list Pd.column) :
  Forall ten_cells cl -> Forall ten_cells cr ->
  Pd.merge (Pd.mkFrame (Np.arange 1 11 1) cl) (Pd.mkFrame (Np.arange 1 11 1) cr)
  = Pd.mkFrame
      (Np.arange 1 11 1)
      (map (fun col => (Pd.suffixed (map fst cr) "_x" (fst col), snd col)) cl
       ++ map (fun col => (Pd.suffixed (map fst cl) "_y" (fst col), snd col)) cr).
Proof.
  intros Hl Hr. unfold Pd.merge, Pd.names.
  cbn [Pd.key Pd.columns]. rewrite farm_sizes_matches.
  assert (E1 : map fst (map (fun i : nat => (i, i)) (seq 0 10)) = seq 0 10)
    by reflexivity.
  assert (E2 : map snd (map (fun i : nat => (i, i)) (seq 0 10)) = seq 0 10)
    by reflexivity.
  rewrite E1, E2.
  assert (EK : Pd.take 0 (seq 0 10) (Np.arange 1 11 1) = Np.arange 1 11 1)
    by reflexivity.
  rewrite EK. f_equal. f_equal.
  - apply map_ext_in. intros col Hin. rewrite take_ten; [reflexivity|].
    rewrite Forall_forall in Hl. auto.
  - apply map_ext_in. intros col Hin. rewrite take_ten; [reflexivity|].
    rewrite Forall_forall in Hr. auto.
Qed.

Lemma simulate_income_length farm_sizes YH MCH LTH CMP MLT LC :
  List.length (simulate_income farm_sizes YH MCH LTH CMP MLT LC)
  = List.length farm_sizes.
Proof. rewrite simulate_income_map. apply length_map. Qed.

Lemma full_time_farmers_length LTH farm_sizes MLT :
  List.length (full_time_farmers LTH farm_sizes MLT) = List.length farm_sizes.
Proof. rewrite full_time_farmers_map. apply length_map. Qed.

(** The table of one farm: the ten sizes, and ten cells in each column,
    whatever the constants and the slider values. *)
Lemma farm_frame_shape i c f :
  Pd.key (farm_frame i (farm_data c f)) = Np.arange 1 11 1
  /\ Forall ten_cells (Pd.columns (farm_frame i (farm_data c f))).
Proof.
  split; [reflexivity|].
  unfold farm_frame, farm_data, ten_cells. cbn [Pd.columns Income Full_Time_Farmers].
  constructor; [|constructor; [|constructor]]; cbn [snd].
  - rewrite length_map, simulate_income_length. reflexivity.
  - rewrite full_time_farmers_length. reflexivity.
Qed.

(** The loop over the two farms: one assignment, then one merge. *)
Lemma all_farm_data_merged (c : Constants) (sliders : nat -> Farm) :
  all_farm_data c sliders
  = Pd.mkFrame
      (Np.arange 1 11 1)
      (Pd.columns (farm_frame 0 (farm_data c (sliders 0%nat)))
       ++ Pd.columns (farm_frame 1 (farm_data c (sliders 1%nat)))).
Proof.
  unfold all_farm_data, num_farms. cbn [seq fold_left].
  change (Pd.empty Pd.empty_frame) with true. cbv iota.
  change (Pd.empty (farm_frame 0 (farm_data c (sliders 0%nat)))) with false.
  cbv iota.
  destruct (farm_frame_shape 0 c (sliders 0%nat)) as [_ H0].
  destruct (farm_frame_shape 1 c (sliders 1%nat)) as [_ H1].
  change (farm_frame 0 (farm_data c (sliders 0%nat)))
    with (Pd.mkFrame (Np.arange 1 11 1)
            (Pd.columns (farm_frame 0 (farm_data c (sliders 0%nat))))).
  change (farm_frame 1 (farm_data c (sliders 1%nat)))
    with (Pd.mkFrame (Np.arange 1 11 1)
            (Pd.columns (farm_frame 1 (farm_data c (sliders 1%nat))))).
  rewrite merge_same_sizes by assumption.
  reflexivity.
Qed.

(** X11: the combined table of the two farms has the ten farm sizes of the
    script as its key, in order, followed by the two columns of the first
    farm and the two columns of the second, cells and names unchanged: the
    merge on ['Farm Size'] drops no row, repeats none and renames no
    column. *)
Theorem all_farm_data_side_by_side (c : Constants) (sliders : nat -> Farm) :
  all_farm_data c sliders
  = Pd.mkFrame
      (Np.arange 1 11 1)
      [ (Income_name 0,
         map Np.Finite
             (simulate_income (Np.arange 1 11 1)
                              (YH (sliders 0%nat)) (MCH (sliders 0%nat))
                              (LTH (sliders 0%nat)) (CMP c) (MLT c) (LC c)));
        (Full_Time_Farmers_name 0,
         full_time_farmers (LTH (sliders 0%nat)) (Np.arange 1 11 1) (MLT c));
        (Income_name 1,
         map Np.Finite
             (simulate_income (Np.arange 1 11 1)
                              (YH (sliders 1%nat)) (MCH (sliders 1%nat))
                              (LTH (sliders 1%nat)) (CMP c) (MLT c) (LC c)));
        (Full_Time_Farmers_name 1,
         full_time_farmers (LTH (sliders 1%nat)) (Np.arange 1 11 1) (MLT c)) ].
Proof. rewrite all_farm_data_merged. reflexivity. Qed.

(** ** The melted views *)

Lemma melt_column_length (col : Pd.column) :
  ten_cells col ->
  List.length (Pd.melt_column (Np.arange 1 11 1) col) = 10%nat.
Proof.
  intros H. unfold Pd.melt_column. rewrite length_map, length_combine, H.
  reflexivity.
Qed.

(** The melt of a table of two farms with [value_vars] finds the two
    full-time-farmers columns by their names. *)
Lemma melt_vars_two_farms k a0 f0 a1 f1 :
  Pd.melt_vars
    (Pd.mkFrame k [ (Income_name 0, a0); (Full_Time_Farmers_name 0, f0);
                    (Income_name 1, a1); (Full_Time_Farmers_name 1, f1) ])
    (map Full_Time_Farmers_name (seq 0 num_farms))
  = Pd.Rows (Pd.melt_column k (Full_Time_Farmers_name 0, f0)
             ++ Pd.melt_column k (Full_Time_Farmers_name 1, f1)).
Proof. cbn. now rewrite app_nil_r. Qed.

(** X12: the data of the full-time-farmers chart is never a [KeyError]: it
    is the ten rows (size, ['Farm 1 Full-Time Farmers'], count) of the first
    farm followed by the ten rows of the second, twenty rows in all. *)
Theorem all_farmers_data_melted_rows (c : Constants) (sliders : nat -> Farm) :
  all_farmers_data_melted c sliders
  = Pd.Rows
      (Pd.melt_column
         (Np.arange 1 11 1)
         (Full_Time_Farmers_name 0,
          full_time_farmers (LTH (sliders 0%nat)) (Np.arange 1 11 1) (MLT c))
       ++ Pd.melt_column
            (Np.arange 1 11 1)
            (Full_Time_Farmers_name 1,
             full_time_farmers (LTH (sliders 1%nat)) (Np.arange 1 11 1) (MLT c)))
  /\ List.length
       (Pd.melt_column
          (Np.arange 1 11 1)
          (Full_Time_Farmers_name 0,
           full_time_farmers (LTH (sliders 0%nat)) (Np.arange 1 11 1) (MLT c))
        ++ Pd.melt_column
             (Np.arange 1 11 1)
             (Full_Time_Farmers_name 1,
              full_time_farmers (LTH (sliders 1%nat)) (Np.arange 1 11 1) (MLT c)))
     = 20%nat.
Proof.
  split.
  - unfold all_farmers_data_melted. rewrite all_farm_data_merged.
    apply melt_vars_two_farms.
  - rewrite length_app, !melt_column_length;
      [reflexivity | apply full_time_farmers_length
       | apply full_time_farmers_length].
Qed.

(** X13: the data of the income chart, melted without [value_vars], has
    forty rows, not twenty: besides the incomes it holds every row of the
    full-time-farmers chart, the counts standing in its ['Income'] column. *)
Theorem all_farm_data_melted_holds_farmers
        (c : Constants) (sliders : nat -> Farm) :
  List.length (all_farm_data_melted c sliders) = 40%nat
  /\ exists rows,
       all_farmers_data_melted c sliders = Pd.Rows rows
       /\ incl rows (all_farm_data_melted c sliders).
Proof.
  unfold all_farm_data_melted, all_farmers_data_melted.
  rewrite all_farm_data_merged.
  destruct (farm_frame_shape 0 c (sliders 0%nat)) as [_ H0].
  destruct (farm_frame_shape 1 c (sliders 1%nat)) as [_ H1].
  unfold farm_frame in *. cbn [Pd.columns app] in *.
  inversion H0 as [|i0 l0 Hi0 Hl0]; subst.
  inversion Hl0 as [|n0 l0' Hn0 _]; subst.
  inversion H1 as [|i1 l1 Hi1 Hl1]; subst.
  inversion Hl1 as [|n1 l1' Hn1 _]; subst.
  rewrite melt_vars_two_farms.
  unfold Pd.melt. cbn [Pd.key Pd.columns flat_map]. split.
  - rewrite !length_app, !melt_column_length by assumption. reflexivity.
  - eexists. split; [reflexivity|].
    intros r Hr. rewrite !in_app_iff in *. tauto.
Qed.

(** ** Comparing farm profiles and labour costs *)

(** X9: for [MLT > 0] and sizes that are not negative, a farm with a larger
    labour time per hectare never has a smaller count at any size. *)
Theorem full_time_farmers_monotone_in_LTH LTH1 LTH2 farm_sizes MLT :
  0 < MLT -> LTH1 <= LTH2 -> Forall (fun s => 0 <= s) farm_sizes ->
  Forall2 Np.le (full_time_farmers LTH1 farm_sizes MLT)
                (full_time_farmers LTH2 farm_sizes MLT).
Proof.
  intros HM HL Hs. rewrite !full_time_farmers_map.
  induction Hs as [|s rest Hpos _ IH]; simpl; constructor; [|exact IH].
  rewrite !full_time_farmer_nonzero by (apply Qlt_not_eq0, HM).
  apply le_Finite_inject_Z, Qceiling_resp_le.
  apply Qmult_le_compat_r.
  - apply Qmult_le_compat_r; assumption.
  - apply Qlt_le_weak, Qinv_lt_0_compat, HM.
Qed.

(** The two default farms over the sizes of the script. *)
Lemma full_time_farmers_monotone_in_LTH_witness :
  Forall2 Np.le (full_time_farmers 100 (Np.arange 1 11 1) 200)
                (full_time_farmers 160 (Np.arange 1 11 1) 200).
Proof.
  apply (full_time_farmers_monotone_in_LTH 100 160 (Np.arange 1 11 1) 200);
    [reflexivity | discriminate | repeat constructor; discriminate].
Defined.

(** X14: while no size needs hired labour ([LTH*s <= MLT] for every size),
    the labour cost [LC] has no effect on the incomes. *)
Theorem incomes_independent_of_LC_below_capacity
        farm_sizes YH MCH LTH CMP MLT LC1 LC2 :
  Forall (fun s => LTH * s <= MLT) farm_sizes ->
  Forall2 Qeq (simulate_income farm_sizes YH MCH LTH CMP MLT LC1)
              (simulate_income farm_sizes YH MCH LTH CMP MLT LC2).
Proof.
  intros Hs. rewrite !simulate_income_map.
  induction Hs as [|s rest Hcap _ IH]; simpl; constructor; [|exact IH].
  rewrite !income_owner_only by exact Hcap. reflexivity.
Qed.

(** The default first farm at sizes 1 and 2, with [LC] 10 and 99. *)
Lemma incomes_independent_of_LC_below_capacity_witness :
  Forall2 Qeq (simulate_income [1; 2] 500 200 100 (25 # 10) 200 10)
              (simulate_income [1; 2] 500 200 100 (25 # 10) 200 99).
Proof.
  apply (incomes_independent_of_LC_below_capacity
           [1; 2] 500 200 100 (25 # 10) 200 10 99).
  repeat constructor; discriminate.
Defined.
